(** * Student dashboard metrics (pages/Dash.tsx)

    A shallow embedding of the [StudentMetrics] page component: the two
    derived percentages computed in its body, the two [switch] tables that
    categorise an activity entry, and the element tree the component
    returns for each state of the metrics query.

    The aggregation that produces a metrics snapshot lives in the
    [useStudentMetrics] hook, whose source is not among the files covered
    here; the module [Core] further down models that part from the
    written specification of the metrics core. *)

From stdpp Require Import base decidable numbers list strings gmap sorting pretty.
From Stdlib Require Import QArith Qcanon.

Local Open Scope Z_scope.

(** ** JavaScript numbers

    A TypeScript [number] is an IEEE-754 double.  The model keeps the three
    special values apart from the finite ones and takes the finite ones as
    exact rationals: rounding, overflow to infinity and the sign of zero
    are not modelled (a zero is the positive zero). *)
Module Number.

Inductive number : Type :=
| Fin (q : Qc)
| PosInf
| NegInf
| NaN.

Global Instance number_eq_dec : EqDecision number.
Proof. solve_decision. Defined.

Definition of_Z (z : Z) : number := Fin (Qc_of_Z z).
Definition of_nat (n : nat) : number := of_Z (Z.of_nat n).

Definition zero : number := of_Z 0.
Definition hundred : number := of_Z 100.

(** [a > b]: every comparison with [NaN] is false. *)
Definition gtb (a b : number) : bool :=
  match a, b with
  | NaN, _ | _, NaN => false
  | Fin x, Fin y => bool_decide (y < x)%Qc
  | Fin _, PosInf => false
  | Fin _, NegInf => true
  | PosInf, PosInf => false
  | PosInf, _ => true
  | NegInf, _ => false
  end.


(** The infinity carrying the sign of [q], or [NaN] for [q = 0]. *)
Definition signed_inf (q : Qc) : number :=
  if decide (q = 0%Qc) then NaN
  else if decide (0 < q)%Qc then PosInf else NegInf.

Definition neg_inf_of (n : number) : number :=
  match n with
  | PosInf => NegInf
  | NegInf => PosInf
  | other => other
  end.

(** [a / b].  A finite dividend over zero gives an infinity (or [NaN] for
    [0 / 0]); this is the case a guard has to keep away from. *)
Definition div (a b : number) : number :=
  match a, b with
  | NaN, _ | _, NaN => NaN
  | Fin x, Fin y =>
      if decide (y = 0%Qc) then signed_inf x else Fin (x / y)%Qc
  | Fin _, (PosInf | NegInf) => Fin 0%Qc
  | PosInf, Fin y => if decide (y < 0)%Qc then NegInf else PosInf
  | NegInf, Fin y => if decide (y < 0)%Qc then PosInf else NegInf
  | (PosInf | NegInf), (PosInf | NegInf) => NaN
  end.

(** [a * b]. *)
Definition mul (a b : number) : number :=
  match a, b with
  | NaN, _ | _, NaN => NaN
  | Fin x, Fin y => Fin (x * y)%Qc
  | Fin x, PosInf | PosInf, Fin x => signed_inf x
  | Fin x, NegInf | NegInf, Fin x => neg_inf_of (signed_inf x)
  | PosInf, PosInf | NegInf, NegInf => PosInf
  | PosInf, NegInf | NegInf, PosInf => NegInf
  end.



End Number.
Export Number.

(** ** Data read by the page *)

(** One entry of [metrics.recentActivity], with the fields the page reads.
    [date] is the instant handed to [new Date(...)], in milliseconds since
    the epoch. *)
Record RecentActivity : Type := {
  id : string;
  type : string;
  title : string;
  description : string;
  date : Z
}.

(** Modelled from the spec: the snapshot type returned by the
    [useStudentMetrics] hook, whose declaration is missing; the fields
    are those of the data model, each numeric one a TypeScript
    [number]. *)
Record MetricsData : Type := {
  enrolledCoursesCount : number;
  completedCoursesCount : number;
  totalStudyTimeHours : number;
  weeklyStudiedHours : number;
  weeklyGoalHours : number;
  currentStreak : number;
  certificatesEarned : number;
  recentActivity : list RecentActivity
}.

(** What [useStudentMetrics()] hands back: [data] is [undefined] ([None])
    while nothing has been fetched or when the fetch failed. *)
Record QueryResult : Type := {
  data : option MetricsData;
  isLoading : bool
}.

(** What [useAuth()] hands back; [first_name] may be null. *)
Record Profile : Type := { first_name : option string }.

(** The host environment the page reads implicitly: date formatting for
    the pt-BR locale depends on the time zone of the browser. *)
Record Runtime : Type := { toLocaleDateString_ptBR : Z -> string }.

(** ** Derived percentages (Dash.tsx, lines 53-59) *)

Definition completionRate (metrics : MetricsData) : number :=
  if gtb (enrolledCoursesCount metrics) zero
  then mul (div (completedCoursesCount metrics) (enrolledCoursesCount metrics)) hundred
  else zero.

Definition weeklyProgress (metrics : MetricsData) : number :=
  if gtb (weeklyGoalHours metrics) zero
  then mul (div (weeklyStudiedHours metrics) (weeklyGoalHours metrics)) hundred
  else zero.



(** ** Activity categories (Dash.tsx, lines 61-89) *)

Inductive icon : Type :=
| BookOpen | Clock | Award | Flame | Trophy | Activity.

Global Instance icon_eq_dec : EqDecision icon.
Proof. solve_decision. Defined.

Definition getActivityIcon (ty : string) : icon :=
  if decide (ty = "course_enrolled") then BookOpen
  else if decide (ty = "lesson_completed") then Award
  else if decide (ty = "course_completed") then Trophy
  else if decide (ty = "certificate_earned") then Award
  else Activity.

Definition getActivityColor (ty : string) : string :=
  if decide (ty = "course_enrolled") then "bg-primary/10 text-primary"
  else if decide (ty = "lesson_completed") then "bg-success/10 text-success"
  else if decide (ty = "course_completed") then "bg-warning/10 text-warning"
  else if decide (ty = "certificate_earned") then "bg-purple-100 text-purple-600"
  else "bg-muted text-muted-foreground".

Definition known_types : list string :=
  ["course_enrolled"; "lesson_completed"; "course_completed"; "certificate_earned"].

(** ** The element tree the component returns *)

Record StatCard : Type := {
  card_label : string;
  card_value : number;
  card_unit : string;
  card_icon : icon
}.

Record ActivityRow : Type := {
  row_key : string;
  row_color : string;
  row_icon : icon;
  row_title : string;
  row_description : string;
  row_date : string
}.

Inductive element : Type :=
| Spinner
| ErrorNotice (text : string)
| Dashboard (heading : string) (cards : list StatCard)
            (rows : list ActivityRow) (emptyNotice : option string).

(** [a || b] on a nullable string: the empty string is falsy as well. *)
Definition or_else (a : option string) (b : string) : string :=
  match a with
  | Some s => if decide (s = "") then b else s
  | None => b
  end.

Definition heading_of (profile : option Profile) : string :=
  "Bem vindo(a), " +:+ or_else (profile ≫= first_name) "Estudante" +:+ "!".

Definition stat_cards (metrics : MetricsData) : list StatCard :=
  [ {| card_label := "Cursos Inscritos";
       card_value := enrolledCoursesCount metrics;
       card_unit := ""; card_icon := BookOpen |};
    {| card_label := "Horas Estudadas";
       card_value := totalStudyTimeHours metrics;
       card_unit := "h"; card_icon := Clock |};
    {| card_label := "Certificados";
       card_value := certificatesEarned metrics;
       card_unit := ""; card_icon := Award |};
    {| card_label := "Sequência Atual";
       card_value := currentStreak metrics;
       card_unit := " dias"; card_icon := Flame |} ].

(** One iteration of [metrics.recentActivity.map(...)] (lines 181-196). *)
Definition activity_row (rt : Runtime) (activity : RecentActivity) : ActivityRow :=
  {| row_key := id activity;
     row_color := getActivityColor (type activity);
     row_icon := getActivityIcon (type activity);
     row_title := title activity;
     row_description := description activity;
     row_date := toLocaleDateString_ptBR rt (date activity) |}.

(** [metrics.recentActivity.length === 0 && (...)] (lines 198-202). *)
Definition empty_notice (metrics : MetricsData) : option string :=
  if decide (length (recentActivity metrics) = 0%nat)
  then Some "Nenhuma atividade recente encontrada"
  else None.

(** What one evaluation of the component body yields: the two constants
    it binds once both early returns are behind it, and the element it
    returns. *)
Record Evaluation : Type := {
  bound_completionRate : option number;
  bound_weeklyProgress : option number;
  returned : element
}.

Definition StudentMetrics_body
    (rt : Runtime) (profile : option Profile) (query : QueryResult) : Evaluation :=
  if isLoading query then
    {| bound_completionRate := None; bound_weeklyProgress := None;
       returned := Spinner |}
  else
    match data query with
    | None =>
        {| bound_completionRate := None; bound_weeklyProgress := None;
           returned := ErrorNotice "Erro ao carregar métricas" |}
    | Some metrics =>
        {| bound_completionRate := Some (completionRate metrics);
           bound_weeklyProgress := Some (weeklyProgress metrics);
           returned :=
             Dashboard (heading_of profile)
                       (stat_cards metrics)
                       (activity_row rt <$> recentActivity metrics)
                       (empty_notice metrics) |}
    end.

Definition StudentMetrics
    (rt : Runtime) (profile : option Profile) (query : QueryResult) : element :=
  returned (StudentMetrics_body rt profile query).



(** Whether an element shows any metric at all. *)
Definition shows_metrics (e : element) : bool :=
  match e with
  | Dashboard _ _ _ _ => true
  | _ => false
  end.

(** A snapshot of a student without any data yet. *)
Definition no_data_yet : MetricsData :=
  {| enrolledCoursesCount := zero; completedCoursesCount := zero;
     totalStudyTimeHours := zero; weeklyStudiedHours := zero;
     weeklyGoalHours := zero; currentStreak := zero;
     certificatesEarned := zero; recentActivity := [] |}.

(** A snapshot with the given numbers as its two course counts. *)
Definition with_counts (enrolled completed : number) (m : MetricsData) : MetricsData :=
  {| enrolledCoursesCount := enrolled; completedCoursesCount := completed;
     totalStudyTimeHours := totalStudyTimeHours m;
     weeklyStudiedHours := weeklyStudiedHours m;
     weeklyGoalHours := weeklyGoalHours m; currentStreak := currentStreak m;
     certificatesEarned := certificatesEarned m;
     recentActivity := recentActivity m |}.


(** ** The metrics core behind the hook *)

Module Core.


(** Modelled from the spec: the study session record of the data model,
    read by the missing hook; a duration may be missing. *)
Record StudySession : Type := {
  ses_student_id : string;
  started_at : Z;
  duration_minutes : option Z
}.

(** Modelled from the spec: the activity event record of the data model,
    read by the missing hook. *)
Record ActivityEvent : Type := {
  ev_id : string;
  ev_student_id : string;
  ev_type : string;
  ev_title : string;
  ev_description : string;
  occurred_at : Z
}.

(** *** Enrollment aggregator *)



(** *** Study time *)

(** Modelled from the spec: the study-time sum of the missing hook;
    sessions with a non-positive or missing duration are excluded from
    time sums. *)
Definition counted_minutes (s : StudySession) : Z :=
  match duration_minutes s with
  | Some d => if decide (0 < d) then d else 0
  | None => 0
  end.

(** Modelled from the spec: the study-time sum of the missing hook,
    in minutes. *)
Definition total_minutes (ss : list StudySession) : Z :=
  foldr (λ s acc, counted_minutes s + acc) 0 ss.

(** Minutes converted to hours, as a fraction. *)
Definition hours_of_minutes (m : Z) : Qc := (Qc_of_Z m / Qc_of_Z 60)%Qc.

(** Modelled from the spec: the study-time sum of the missing hook;
    the sum of [duration_minutes] across all sessions, converted to
    hours, fractional and not truncated. *)
Definition totalStudyTimeHours (ss : list StudySession) : Qc :=
  hours_of_minutes (total_minutes ss).




(** *** Streak *)

(** Milliseconds in a calendar day. *)
Definition ms_per_day : Z := 86400000.

(** Modelled from the spec: the day bucketing of the missing hook; the
    calendar day of an instant in the reporting time zone, the zone
    given as its offset from UTC in milliseconds; days are numbered from
    the epoch. *)
Definition calendar_day (tz : Z) (t : Z) : Z := (t + tz) `div` ms_per_day.

(** Modelled from the spec: the day bucketing of the missing hook; all
    sessions bucketed by calendar day into the set of active days; the
    presence of a session, not its duration, makes a day active. *)
Definition active_days (tz : Z) (ss : list StudySession) : gset Z :=
  list_to_set (calendar_day tz ∘ started_at <$> ss).

(** Modelled from the spec: the streak walk of the missing hook; walk
    backward one day at a time from [d], counting consecutive active
    days and stopping at the first day with no session.  [fuel] bounds
    the number of steps. *)
Fixpoint walk_back (fuel : nat) (active : gset Z) (d : Z) : nat :=
  match fuel with
  | O => O
  | S fuel' =>
      if decide (d ∈ active) then S (walk_back fuel' active (d - 1)) else O
  end.

(** Modelled from the spec: the streak calculator of the missing hook;
    the walk starts from today; if today has no session yet but
    yesterday does, it counts from yesterday backward; if neither is
    active the streak is 0.  No run of active days is longer than the
    number of active days, which is the fuel given. *)
Definition currentStreak (tz : Z) (now : Z) (ss : list StudySession) : nat :=
  let active := active_days tz ss in
  let today := calendar_day tz now in
  let start := if decide (today ∈ active) then today else today - 1 in
  walk_back (size active) active start.

(** The day the walk starts from. *)
Definition streak_start (active : gset Z) (today : Z) : Z :=
  if decide (today ∈ active) then today else today - 1.

(** A run of [n] active days ending at [d]: the days [d], [d - 1], ...,
    [d - (n - 1)] all have a session. *)
Definition run (active : gset Z) (d : Z) (n : nat) : Prop :=
  ∀ i : nat, (i < n)%nat → d - Z.of_nat i ∈ active.

(** *** Activity feed *)

(** Modelled from the spec: the feed order of the missing hook; [a] is
    listed no later than [b]: newer first, and on equal instants the
    greater id first. *)
Definition feed_before (a b : ActivityEvent) : Prop :=
  occurred_at b < occurred_at a
  ∨ (occurred_at a = occurred_at b ∧ String.le (ev_id b) (ev_id a)).

Global Instance feed_before_dec : RelDecision feed_before.
Proof. intros a b. unfold feed_before. apply _. Defined.

(** Modelled from the spec: the sort of the missing feed builder. *)
Definition sort_feed (events : list ActivityEvent) : list ActivityEvent :=
  merge_sort feed_before events.

(** Modelled from the spec: the feed builder of the missing hook; sort
    newest first, then cap at the feed limit, dropping what lies beyond
    it. *)
Definition buildFeed (feedLimit : nat) (events : list ActivityEvent)
  : list ActivityEvent :=
  take feedLimit (sort_feed events).

(** The entry of [recentActivity] an event becomes. *)
Definition to_recent (e : ActivityEvent) : RecentActivity :=
  {| id := ev_id e; type := ev_type e; title := ev_title e;
     description := ev_description e; date := occurred_at e |}.

End Core.

(** ** The lesson editing dialog (EditLessonModal)

    The handlers of the dialog that edits one lesson: the list of files
    picked for upload, the defaults the form is filled with, and the
    submit handler with its uploads, its single update request and its
    [try]/[catch]/[finally].  Validation by the schema and the form
    library are not part of this model: [onSubmit] is what runs once
    they let a submission through. *)

Module EditLessonModal.

(** A browser [File], with the attributes the dialog reads; the size is
    in bytes. *)
Record File : Type := {
  file_name : string;
  file_type : string;
  file_size : N
}.

(** One entry of [lesson.materials], as [onSubmit] builds them. *)
Record Material : Type := {
  mat_name : string;
  mat_url : string;
  mat_type : string;
  mat_size : N
}.

(** The [Lesson] the dialog receives, with the fields it reads; the
    nullable ones are options. *)
Record Lesson : Type := {
  lesson_id : string;
  lesson_title : string;
  lesson_description : option string;
  lesson_order_index : number;
  lesson_video_url : option string;
  lesson_video_type : option string;
  lesson_duration_minutes : option number;
  lesson_materials : option (list Material)
}.

(** The values the form is filled with ([defaultValues], and the
    argument of [reset] in the effect). *)
Record FormValues : Type := {
  fv_title : string;
  fv_description : string;
  fv_order_index : number;
  fv_video_url : string;
  fv_video_type : string;
  fv_duration_minutes : option number
}.

Inductive VideoType : Type := youtube | upload.

(** [LessonFormData]: what the schema hands to [onSubmit]. *)
Record LessonFormData : Type := {
  title : string;
  description : option string;
  order_index : number;
  video_url : option string;
  video_type : option VideoType;
  duration_minutes : option number
}.

(** The argument of [uploadFile.mutateAsync]. *)
Record UploadRequest : Type := {
  up_file : File;
  up_bucket : string;
  up_path : string
}.

(** The argument of [updateLesson.mutateAsync]. *)
Record LessonUpdate : Type := {
  upd_id : string;
  upd_title : string;
  upd_description : option string;
  upd_order_index : number;
  upd_video_url : option string;
  upd_video_type : option VideoType;
  upd_duration_minutes : option number;
  upd_materials : list Material
}.

(** What the dialog calls during one submission and cannot see into:
    the clock read by [Date.now()] in iteration [i] of the loop (in
    milliseconds since the epoch), the outcome of the upload made in
    iteration [i] ([Some publicUrl], or [None] when the promise
    rejects), and whether the update request resolves. *)
Record Services : Type := {
  now : nat → N;
  uploadFile : nat → UploadRequest → option string;
  updateLesson : LessonUpdate → bool
}.

(** The two [useState] cells of the component. *)
Record ModalState : Type := {
  materialFiles : list File;
  uploadingMaterials : bool
}.

Definition initial : ModalState :=
  {| materialFiles := []; uploadingMaterials := false |}.

(** What a handler does to the outside, in the order it does it. *)
Inductive effect : Type :=
| SetUploadingMaterials (b : bool)
| UploadFile (req : UploadRequest)
| UpdateLesson (u : LessonUpdate)
| OnOpenChange (b : bool)
| Reset
| ResetTo (values : FormValues)
| SetMaterialFiles (fs : list File)
| ConsoleError.

(** [a || b] on a nullable string. *)
Definition or_string (a : option string) (b : string) : string :=
  match a with
  | Some s => if decide (s = "") then b else s
  | None => b
  end.

(** The form defaults (lines 53-60 and 65-72); the cast of
    [lesson.video_type] checks nothing. *)
Definition form_values (lesson : Lesson) : FormValues :=
  {| fv_title := lesson_title lesson;
     fv_description := or_string (lesson_description lesson) "";
     fv_order_index := lesson_order_index lesson;
     fv_video_url := or_string (lesson_video_url lesson) "";
     fv_video_type := or_string (lesson_video_type lesson) "youtube";
     fv_duration_minutes := lesson_duration_minutes lesson |}.

(** [l.filter((_, i) => keep(i))], the callback seeing the index only;
    [i] is the index of the head of [l]. *)
Fixpoint filter_index {A : Type} (keep : nat → bool) (i : nat) (l : list A) : list A :=
  match l with
  | [] => []
  | x :: l' =>
      if keep i then x :: filter_index keep (S i) l'
      else filter_index keep (S i) l'
  end.

(** [handleMaterialFilesChange] (lines 125-128): [files] is
    [e.target.files], which may be null. *)
Definition handleMaterialFilesChange
    (files : option (list File)) (prev : list File) : list File :=
  prev ++ default [] files.

(** [removeMaterialFile] (lines 130-132). *)
Definition removeMaterialFile (index : nat) (prev : list File) : list File :=
  filter_index (λ i, negb (i =? index)%nat) 0 prev.

(** [lesson.materials || []]. *)
Definition existingMaterials (lesson : Lesson) : list Material :=
  default [] (lesson_materials lesson).

(** [removeExistingMaterial] (lines 134-139): the filtered list is
    computed and dropped; nothing is set and nothing is sent. *)
Definition removeExistingMaterial
    (lesson : Lesson) (index : nat) (st : ModalState) : ModalState :=
  let currentMaterials := existingMaterials lesson in
  let updatedMaterials :=
    filter_index (λ i, negb (i =? index)%nat) 0 currentMaterials in
  st.

(** The request of iteration [i] (lines 85-90). *)
Definition upload_request (sv : Services) (lesson : Lesson) (i : nat) (file : File)
  : UploadRequest :=
  {| up_file := file;
     up_bucket := "course-materials";
     up_path := lesson_id lesson +:+ "/" +:+ pretty (now sv i) +:+ "-" +:+ file_name file |}.

(** The entry pushed after a successful upload (lines 92-97). *)
Definition new_material (file : File) (publicUrl : string) : Material :=
  {| mat_name := file_name file; mat_url := publicUrl;
     mat_type := file_type file; mat_size := file_size file |}.

(** The [for] loop of [onSubmit] (lines 84-98), from iteration [i] on:
    the effects performed, and the final [newMaterials], or [None] when
    an upload rejected and the loop was left through the exception. *)
Fixpoint upload_loop (sv : Services) (lesson : Lesson) (i : nat)
    (files : list File) (newMaterials : list Material)
  : list effect * option (list Material) :=
  match files with
  | [] => ([], Some newMaterials)
  | file :: rest =>
      let req := upload_request sv lesson i file in
      match uploadFile sv i req with
      | None => ([UploadFile req], None)
      | Some publicUrl =>
          let '(effects, result) :=
            upload_loop sv lesson (S i) rest
              (newMaterials ++ [new_material file publicUrl]) in
          (UploadFile req :: effects, result)
      end
  end.

(** The update request (lines 101-113). *)
Definition lesson_update
    (lesson : Lesson) (data : LessonFormData) (newMaterials : list Material)
  : LessonUpdate :=
  {| upd_id := lesson_id lesson;
     upd_title := title data;
     upd_description := description data;
     upd_order_index := order_index data;
     upd_video_url := video_url data;
     upd_video_type := video_type data;
     upd_duration_minutes := duration_minutes data;
     upd_materials := existingMaterials lesson ++ newMaterials |}.

(** [onSubmit] (lines 78-123), as the sequence of its effects. *)
Definition onSubmit
    (sv : Services) (lesson : Lesson) (st : ModalState) (data : LessonFormData)
  : list effect :=
  let '(uploads, result) := upload_loop sv lesson 0 (materialFiles st) [] in
  [SetUploadingMaterials true]
  ++ uploads
  ++ match result with
     | None => [ConsoleError]
     | Some newMaterials =>
         let u := lesson_update lesson data newMaterials in
         UpdateLesson u ::
         (if updateLesson sv u
          then [OnOpenChange false; Reset; SetMaterialFiles []]
          else [ConsoleError])
     end
  ++ [SetUploadingMaterials false].

(** What a submission does once the loop is over, [result] being what
    the loop left: the part of [onSubmit] between the loop and the
    [finally] block. *)
Definition after_uploads
    (sv : Services) (lesson : Lesson) (data : LessonFormData)
    (result : option (list Material)) : list effect :=
  match result with
  | None => [ConsoleError]
  | Some newMaterials =>
      let u := lesson_update lesson data newMaterials in
      UpdateLesson u ::
      (if updateLesson sv u
       then [OnOpenChange false; Reset; SetMaterialFiles []]
       else [ConsoleError])
  end.

(** The effect on [lesson.id] (lines 64-74), run when the dialog is
    handed a lesson: it fires only when the id differs from the one of
    the previous render ([reset], its other dependency, is taken to keep
    its identity from one render to the next, as the form library
    provides). *)
Definition on_lesson (previous : Lesson) (lesson : Lesson) : list effect :=
  if decide (lesson_id previous = lesson_id lesson) then []
  else [ResetTo (form_values lesson); SetMaterialFiles []].

(** What an effect does to the two state cells. *)
Definition apply_effect (st : ModalState) (e : effect) : ModalState :=
  match e with
  | SetUploadingMaterials b =>
      {| materialFiles := materialFiles st; uploadingMaterials := b |}
  | SetMaterialFiles fs =>
      {| materialFiles := fs; uploadingMaterials := uploadingMaterials st |}
  | _ => st
  end.

Definition apply_effects (st : ModalState) (es : list effect) : ModalState :=
  foldl apply_effect st es.

(** The uploads, updates and close requests found in a trace. *)
Definition uploads_of (es : list effect) : list UploadRequest :=
  omap (λ e, match e with UploadFile req => Some req | _ => None end) es.

Definition updates_of (es : list effect) : list LessonUpdate :=
  omap (λ e, match e with UpdateLesson u => Some u | _ => None end) es.

Definition open_changes_of (es : list effect) : list bool :=
  omap (λ e, match e with OnOpenChange b => Some b | _ => None end) es.

(** What the user does in the dialog between two submissions. *)
Inductive action : Type :=
| PickFiles (files : option (list File))
| RemovePicked (index : nat)
| RemoveExisting (index : nat).

Definition handle (lesson : Lesson) (st : ModalState) (a : action) : ModalState :=
  match a with
  | PickFiles files =>
      apply_effect st (SetMaterialFiles (handleMaterialFilesChange files (materialFiles st)))
  | RemovePicked index =>
      apply_effect st (SetMaterialFiles (removeMaterialFile index (materialFiles st)))
  | RemoveExisting index => removeExistingMaterial lesson index st
  end.

(** The request iteration [j] makes for the file at position [j]. *)
Definition requests (sv : Services) (lesson : Lesson) (files : list File)
  : list UploadRequest :=
  imap (upload_request sv lesson) files.

(** The upload of iteration [j] resolves, for every picked file. *)
Definition all_resolve (sv : Services) (lesson : Lesson) (files : list File) : Prop :=
  ∀ j file, files !! j = Some file →
    is_Some (uploadFile sv j (upload_request sv lesson j file)).

(** Iteration [k] is the first whose upload rejects. *)
Definition first_rejected
    (sv : Services) (lesson : Lesson) (files : list File) (k : nat) : Prop :=
  (∃ file, files !! k = Some file
           ∧ uploadFile sv k (upload_request sv lesson k file) = None)
  ∧ ∀ j file, (j < k)%nat → files !! j = Some file →
      is_Some (uploadFile sv j (upload_request sv lesson j file)).

(** [new] holds, position by position, the entry of each picked file
    with the url its upload returned. *)
Definition materials_of
    (sv : Services) (lesson : Lesson) (files : list File) (new : list Material) : Prop :=
  length new = length files
  ∧ ∀ j file url, files !! j = Some file →
      uploadFile sv j (upload_request sv lesson j file) = Some url →
      new !! j = Some (new_material file url).

(** What happens to the open dialog, one event after the other: the
    user acts, or a submission runs to its end. *)
Inductive event : Type :=
| Act (a : action)
| Submit (sv : Services) (data : LessonFormData).

Definition step (lesson : Lesson) (st : ModalState) (ev : event) : ModalState :=
  match ev with
  | Act a => handle lesson st a
  | Submit sv data => apply_effects st (onSubmit sv lesson st data)
  end.

Definition run_events (lesson : Lesson) (st : ModalState) (evs : list event)
  : ModalState :=
  foldl (step lesson) st evs.

(** The files handed over by the file input in the course of events. *)
Definition picked_in (evs : list event) : list File :=
  evs ≫= λ ev, match ev with
               | Act (PickFiles files) => default [] files
               | _ => []
               end.

(** A string of decimal digits. *)
Fixpoint digits (s : string) : Prop :=
  match s with
  | "" => True
  | String c s' => (48 ≤ Ascii.nat_of_ascii c ≤ 57)%nat ∧ digits s'
  end.

End EditLessonModal.

(** ** Sample data *)


Definition session (t : Z) (minutes : option Z) : Core.StudySession :=
  {| Core.ses_student_id := "s1"; Core.started_at := t;
     Core.duration_minutes := minutes |}.

(** The instant that is [ms] milliseconds into local day [day] of the
    zone with offset [tz]. *)
Definition local_instant (tz day ms : Z) : Z := day * Core.ms_per_day + ms - tz.

(** UTC-3, and three in the afternoon of local day 20000. *)
Definition sample_tz : Z := -10800000.
Definition sample_now : Z := local_instant sample_tz 20000 54000000.

Definition sessions_three_days : list Core.StudySession :=
  [ session (local_instant sample_tz 19999 82800000) (Some 30);
    session (local_instant sample_tz 20000 3600000) (Some 45);
    session (local_instant sample_tz 19998 36000000) None;
    session (local_instant sample_tz 19999 18000000) (Some 15) ].


Definition sessions_with_gap : list Core.StudySession :=
  [ session (local_instant sample_tz 19997 0) (Some 20);
    session (local_instant sample_tz 19999 86399999) (Some 60) ].

Definition sessions_tomorrow : list Core.StudySession :=
  [ session (local_instant sample_tz 20001 0) (Some 25) ].

Definition event (key : string) (t : Z) : Core.ActivityEvent :=
  {| Core.ev_id := key; Core.ev_student_id := "s1";
     Core.ev_type := "lesson_completed"; Core.ev_title := "Aula";
     Core.ev_description := ""; Core.occurred_at := t |}.

Definition events_t1_t2_t3 : list Core.ActivityEvent :=
  [ event "a" 2000; event "b" 1000; event "c" 3000 ].

Definition events_tied : list Core.ActivityEvent :=
  [ event "a" 1000; event "c" 1000; event "b" 1000; event "d" 500 ].

Definition slides_pdf : EditLessonModal.File :=
  {| EditLessonModal.file_name := "slides.pdf";
     EditLessonModal.file_type := "application/pdf";
     EditLessonModal.file_size := 2048 |}.

Definition notes_zip : EditLessonModal.File :=
  {| EditLessonModal.file_name := "notes.zip";
     EditLessonModal.file_type := "application/zip";
     EditLessonModal.file_size := 512 |}.

Definition intro_pdf : EditLessonModal.Material :=
  {| EditLessonModal.mat_name := "intro.pdf";
     EditLessonModal.mat_url := "https://cdn.example/l1/1-intro.pdf";
     EditLessonModal.mat_type := "application/pdf";
     EditLessonModal.mat_size := 100 |}.

Definition lesson_one : EditLessonModal.Lesson :=
  {| EditLessonModal.lesson_id := "l1";
     EditLessonModal.lesson_title := "Aula 1";
     EditLessonModal.lesson_description := None;
     EditLessonModal.lesson_order_index := of_Z 0;
     EditLessonModal.lesson_video_url := None;
     EditLessonModal.lesson_video_type := None;
     EditLessonModal.lesson_duration_minutes := Some (of_Z 10);
     EditLessonModal.lesson_materials := Some [intro_pdf] |}.

Definition lesson_two : EditLessonModal.Lesson :=
  {| EditLessonModal.lesson_id := "l2";
     EditLessonModal.lesson_title := "Aula 2";
     EditLessonModal.lesson_description := Some "Segunda aula";
     EditLessonModal.lesson_order_index := of_Z 1;
     EditLessonModal.lesson_video_url := Some "https://videos.example/2";
     EditLessonModal.lesson_video_type := Some "vimeo";
     EditLessonModal.lesson_duration_minutes := None;
     EditLessonModal.lesson_materials := None |}.

Definition form_data : EditLessonModal.LessonFormData :=
  {| EditLessonModal.title := "Aula 1";
     EditLessonModal.description := Some "";
     EditLessonModal.order_index := of_Z 0;
     EditLessonModal.video_url := Some "";
     EditLessonModal.video_type := Some EditLessonModal.youtube;
     EditLessonModal.duration_minutes := Some (of_Z 10) |}.

Definition two_picked : EditLessonModal.ModalState :=
  {| EditLessonModal.materialFiles := [slides_pdf; notes_zip];
     EditLessonModal.uploadingMaterials := false |}.

(** Services that resolve everything; the url is made from the path. *)
Definition services_ok : EditLessonModal.Services :=
  {| EditLessonModal.now := λ i, (1700000000000 + N.of_nat i)%N;
     EditLessonModal.uploadFile :=
       λ _ req, Some ("https://cdn.example/" +:+ EditLessonModal.up_path req);
     EditLessonModal.updateLesson := λ _, true |}.

(** Services whose second upload rejects. *)
Definition services_second_upload_rejects : EditLessonModal.Services :=
  {| EditLessonModal.now := λ i, (1700000000000 + N.of_nat i)%N;
     EditLessonModal.uploadFile :=
       λ i req, if (i =? 1)%nat then None
                else Some ("https://cdn.example/" +:+ EditLessonModal.up_path req);
     EditLessonModal.updateLesson := λ _, true |}.

(** Services whose update request rejects. *)
Definition services_update_rejects : EditLessonModal.Services :=
  {| EditLessonModal.now := λ i, (1700000000000 + N.of_nat i)%N;
     EditLessonModal.uploadFile :=
       λ _ req, Some ("https://cdn.example/" +:+ EditLessonModal.up_path req);
     EditLessonModal.updateLesson := λ _, false |}.

(** * Properties *)

(** ** Numbers *)

Section number_facts.
Implicit Types (a b : number) (x y : Qc).






End number_facts.

(** ** Completion rate and weekly progress *)






(** The hypothesis on the counts matters: a snapshot holding something
    that is not a count, a NaN for instance, passes it on. *)
Remark completionRate_nan_operand :
  completionRate (with_counts (of_nat 2) NaN no_data_yet) = NaN.
Proof. vm_compute. reflexivity. Qed.








(** ** Activity categories *)

Lemma known_type_cases (ty : string) :
  ty ∉ known_types ↔
  ty ≠ "course_enrolled" ∧ ty ≠ "lesson_completed"
  ∧ ty ≠ "course_completed" ∧ ty ≠ "certificate_earned".
Proof.
  unfold known_types. rewrite !not_elem_of_cons. split.
  - by intros (? & ? & ? & ? & _).
  - intros (? & ? & ? & ?). split_and!; [done..|apply not_elem_of_nil].
Qed.

Lemma getActivityIcon_unknown ty : ty ∉ known_types → getActivityIcon ty = Activity.
Proof.
  intros (H1 & H2 & H3 & H4)%known_type_cases. unfold getActivityIcon.
  by rewrite !decide_False.
Qed.

Lemma getActivityColor_unknown ty :
  ty ∉ known_types → getActivityColor ty = "bg-muted text-muted-foreground".
Proof.
  intros (H1 & H2 & H3 & H4)%known_type_cases. unfold getActivityColor.
  by rewrite !decide_False.
Qed.

(** Only an unknown type gets the fallback colour: the four known types
    keep a colour of their own. *)
Lemma getActivityColor_fallback_iff ty :
  getActivityColor ty = "bg-muted text-muted-foreground" ↔ ty ∉ known_types.
Proof.
  split; [|apply getActivityColor_unknown].
  rewrite known_type_cases. unfold getActivityColor.
  repeat case_decide; subst; naive_solver.
Qed.

Lemma dashboard_rows rt profile m :
  StudentMetrics rt profile {| data := Some m; isLoading := false |}
  = Dashboard (heading_of profile) (stat_cards m)
              (activity_row rt <$> recentActivity m) (empty_notice m).
Proof. reflexivity. Qed.

(** C4: for every type string outside the four known ones, both tables
    return the generic fallback (the Activity icon and the muted
    colour); the tables are total, and the page still renders, at the
    same position, an entry for an activity of such a type, carrying
    that fallback category. *)
Theorem unknown_type_fallback (ty : string) :
  ty ∉ known_types →
  getActivityIcon ty = Activity
  ∧ getActivityColor ty = "bg-muted text-muted-foreground"
  ∧ ∀ rt profile m (i : nat) a,
      recentActivity m !! i = Some a → type a = ty →
      ∃ heading cards rows notice r,
        StudentMetrics rt profile {| data := Some m; isLoading := false |}
        = Dashboard heading cards rows notice
        ∧ length rows = length (recentActivity m)
        ∧ rows !! i = Some r
        ∧ row_key r = id a
        ∧ row_icon r = Activity
        ∧ row_color r = "bg-muted text-muted-foreground".
Proof.
  intros Hty. split_and!.
  - by apply getActivityIcon_unknown.
  - by apply getActivityColor_unknown.
  - intros rt profile m i a Hi <-. do 4 eexists. exists (activity_row rt a).
    split_and!; [apply dashboard_rows|..].
    + by rewrite length_fmap.
    + by rewrite list_lookup_fmap, Hi.
    + done.
    + by apply getActivityIcon_unknown.
    + by apply getActivityColor_unknown.
Qed.

Lemma unknown_type_fallback_witness :
  getActivityIcon "quiz_passed" = Activity
  ∧ getActivityColor "quiz_passed" = "bg-muted text-muted-foreground".
Proof.
  assert ("quiz_passed" ∉ known_types) as Hty.
  { apply (bool_decide_unpack _). vm_compute. exact I. }
  destruct (unknown_type_fallback "quiz_passed" Hty) as (Hicon & Hcolor & _).
  split; [exact Hicon | exact Hcolor].
Defined.

(** ** States of the page *)

(** C8: when the query has finished without data (the fetch failed), the
    page returns the error notice, which shows no metric and differs from
    every dashboard, in particular from the one of an all-zero snapshot;
    a student without data gets the dashboard itself, with zero counts,
    a zero rate, no rows and the empty-feed notice. *)
Theorem fetch_failure_is_surfaced (rt : Runtime) (profile : option Profile) :
  let failed := {| data := None; isLoading := false |} in
  let empty := {| data := Some no_data_yet; isLoading := false |} in
  StudentMetrics rt profile failed = ErrorNotice "Erro ao carregar métricas"
  ∧ shows_metrics (StudentMetrics rt profile failed) = false
  ∧ bound_completionRate (StudentMetrics_body rt profile failed) = None
  ∧ (∀ m, StudentMetrics rt profile failed
          ≠ StudentMetrics rt profile {| data := Some m; isLoading := false |})
  ∧ StudentMetrics rt profile empty
    = Dashboard (heading_of profile) (stat_cards no_data_yet) []
                (Some "Nenhuma atividade recente encontrada")
  ∧ shows_metrics (StudentMetrics rt profile empty) = true
  ∧ bound_completionRate (StudentMetrics_body rt profile empty) = Some zero
  ∧ bound_weeklyProgress (StudentMetrics_body rt profile empty) = Some zero.
Proof. by split_and!. Qed.


(** The host environment enters the element through the date labels of
    the feed rows only. *)
Lemma StudentMetrics_runtime rt1 rt2 profile query :
  (∀ m a, data query = Some m → a ∈ recentActivity m →
          toLocaleDateString_ptBR rt1 (date a) = toLocaleDateString_ptBR rt2 (date a)) →
  StudentMetrics rt1 profile query = StudentMetrics rt2 profile query.
Proof.
  intros Hlabels. unfold StudentMetrics, StudentMetrics_body.
  destruct (isLoading query); [done|].
  destruct (data query) as [m|] eqn:Hdata; [|done]. simpl. f_equal.
  apply list_fmap_ext. intros i a Hi. unfold activity_row.
  rewrite (Hlabels m a); [done..|]. by eapply list_elem_of_lookup_2.
Qed.

(** C10: with an empty [recentActivity] the page still returns the whole
    dashboard (heading and the four cards), with no feed row and the
    dedicated empty-state notice in their place. *)
Theorem empty_feed_renders_notice
    (rt : Runtime) (profile : option Profile) (m : MetricsData) :
  recentActivity m = [] →
  StudentMetrics rt profile {| data := Some m; isLoading := false |}
  = Dashboard (heading_of profile) (stat_cards m) []
              (Some "Nenhuma atividade recente encontrada")
  ∧ length (stat_cards m) = 4%nat.
Proof.
  intros Hempty. rewrite dashboard_rows. unfold empty_notice.
  by rewrite Hempty.
Qed.

(** The notice is shown for the empty feed only. *)
Lemma empty_notice_iff m : is_Some (empty_notice m) ↔ recentActivity m = [].
Proof.
  unfold empty_notice. destruct (recentActivity m); simpl.
  - split; eauto.
  - split; [by intros [? ?]|done].
Qed.

(** ** Study time *)

Section study_time.
Import Core.
Implicit Types (s : StudySession) (ss : list StudySession).








End study_time.


(** ** Streak *)

Section streak.
Import Core.
Implicit Types (A : gset Z) (d : Z) (n fuel : nat).

Lemma walk_back_run fuel A d : run A d (walk_back fuel A d).
Proof.
  revert d. induction fuel as [|fuel IH]; intros d i; simpl; [lia|].
  destruct (decide (d ∈ A)) as [Hd|Hd]; [|lia].
  destruct i as [|i]; intros Hi.
  - by replace (d - Z.of_nat 0) with d by lia.
  - replace (d - Z.of_nat (S i)) with (d - 1 - Z.of_nat i) by lia.
    apply IH. lia.
Qed.

Lemma walk_back_le fuel A d : (walk_back fuel A d ≤ fuel)%nat.
Proof.
  revert d. induction fuel as [|fuel IH]; intros d; simpl; [done|].
  destruct (decide (d ∈ A)); [|lia]. specialize (IH (d - 1)). lia.
Qed.

Lemma walk_back_stop fuel A d :
  (walk_back fuel A d < fuel)%nat → d - Z.of_nat (walk_back fuel A d) ∉ A.
Proof.
  revert d. induction fuel as [|fuel IH]; intros d; simpl; [lia|].
  destruct (decide (d ∈ A)) as [Hd|Hd]; intros Hlt.
  - replace (d - Z.of_nat (S (walk_back fuel A (d - 1))))
      with (d - 1 - Z.of_nat (walk_back fuel A (d - 1))) by lia.
    apply IH. lia.
  - by replace (d - Z.of_nat 0) with d by lia.
Qed.

(** A run is never longer than the number of active days. *)
Lemma run_le_size A d n : run A d n → (n ≤ size A)%nat.
Proof.
  intros Hrun.
  set (days := (λ i : nat, d - Z.of_nat i) <$> seq 0 n).
  assert (NoDup days) as Hnodup.
  { apply NoDup_fmap_2; [|apply NoDup_seq]. intros i j Hij. lia. }
  assert (list_to_set days ⊆ A) as Hsub.
  { intros x [i [-> Hi%elem_of_seq]]%elem_of_list_to_set%list_elem_of_fmap.
    apply Hrun. lia. }
  apply subseteq_size in Hsub.
  rewrite size_list_to_set in Hsub by done.
  unfold days in Hsub. by rewrite length_fmap, length_seq in Hsub.
Qed.

Lemma run_S A d n : run A d n → d - Z.of_nat n ∈ A → run A d (S n).
Proof.
  intros Hrun Hn i Hi. destruct (decide (i = n)) as [->|]; [done|].
  apply Hrun. lia.
Qed.

(** With the number of active days (or more) as fuel the walk is never
    cut short: it returns the length of the maximal run ending at [d]. *)
Lemma walk_back_enough fuel A d n :
  (size A ≤ fuel)%nat → run A d n → d - Z.of_nat n ∉ A →
  walk_back fuel A d = n.
Proof.
  intros Hfuel Hrun Hstop.
  pose proof (walk_back_run fuel A d) as Hrun'.
  pose proof (walk_back_le fuel A d) as Hle.
  destruct (lt_eq_lt_dec (walk_back fuel A d) n) as [[Hlt|Heq]|Hgt]; [|done|].
  - exfalso. destruct (decide (walk_back fuel A d < fuel)%nat) as [Hcut|Hcut].
    + apply (walk_back_stop fuel A d Hcut). by apply Hrun.
    + pose proof (run_le_size A d (S (walk_back fuel A d))) as Hsize.
      assert (S (walk_back fuel A d) ≤ size A)%nat; [|lia].
      apply Hsize, run_S; [done|]. by apply Hrun.
  - exfalso. apply Hstop. by apply Hrun'.
Qed.




(** The streak is the length of the maximal run of active days ending at
    the start day. *)
Lemma currentStreak_is tz now ss n :
  let A := active_days tz ss in
  let start := streak_start A (calendar_day tz now) in
  run A start n → start - Z.of_nat n ∉ A → currentStreak tz now ss = n.
Proof. intros A start Hrun Hstop. by apply walk_back_enough. Qed.



End streak.

Section streak_examples.
Import Core.







End streak_examples.


(** ** Activity feed *)

Section feed.
Import Core.
Implicit Types (a b c : ActivityEvent) (events : list ActivityEvent).

Global Instance feed_before_total : Total feed_before.
Proof.
  intros a b. unfold feed_before.
  destruct (Z.lt_trichotomy (occurred_at a) (occurred_at b)) as [?|[Heq|?]];
    [by right; left| |by left; left].
  destruct (total String.le (ev_id a) (ev_id b)); [right|left]; right; split; congruence.
Qed.

Global Instance feed_before_trans : Transitive feed_before.
Proof.
  intros a b c [Hab|[Hab Hid1]] [Hbc|[Hbc Hid2]]; unfold feed_before.
  - left. lia.
  - left. lia.
  - left. lia.
  - right. split; [congruence|]. by etrans.
Qed.

Lemma sort_feed_sorted events : StronglySorted feed_before (sort_feed events).
Proof. apply StronglySorted_merge_sort; apply _. Qed.

Lemma sort_feed_perm events : sort_feed events ≡ₚ events.
Proof. apply merge_sort_Permutation. Qed.

Lemma StronglySorted_take {A} (R : relation A) (l : list A) n :
  StronglySorted R l → StronglySorted R (take n l).
Proof.
  intros Hl. rewrite <-(take_drop n l) in Hl.
  by apply StronglySorted_app_1_l in Hl.
Qed.

Lemma buildFeed_sorted limit events :
  StronglySorted feed_before (buildFeed limit events).
Proof. apply StronglySorted_take, sort_feed_sorted. Qed.

(** Whatever the cap drops is listed after everything it keeps. *)
Lemma buildFeed_drops_oldest limit events kept dropped :
  kept ∈ buildFeed limit events →
  dropped ∈ drop limit (sort_feed events) →
  feed_before kept dropped.
Proof.
  intros Hkept Hdropped. pose proof (sort_feed_sorted events) as Hsorted.
  rewrite <-(take_drop limit (sort_feed events)) in Hsorted.
  by eapply StronglySorted_app_1_elem_of.
Qed.

Lemma buildFeed_length limit events :
  length (buildFeed limit events) = (limit `min` length events)%nat.
Proof.
  unfold buildFeed. by rewrite length_take, (Permutation_length (sort_feed_perm events)).
Qed.

(** Two events that each precede the other carry the same instant and
    the same id. *)
Lemma feed_before_antisym a b :
  feed_before a b → feed_before b a →
  occurred_at a = occurred_at b ∧ ev_id a = ev_id b.
Proof.
  intros [?|[Ht Hid1]] [?|[Ht' Hid2]]; try lia.
  split; [done|]. by apply (anti_symm String.le).
Qed.

(** Three events at distinct instants, given in any order. *)
Lemma buildFeed_three a1 a2 a3 events :
  occurred_at a2 < occurred_at a1 → occurred_at a1 < occurred_at a3 →
  events ≡ₚ [a1; a2; a3] → buildFeed 2 events = [a3; a1].
Proof.
  intros H21 H13 Hperm.
  assert (sort_feed events = [a3; a1; a2]) as Hsort.
  { apply StronglySorted_unique_strong with (R := feed_before).
    - intros x y Hx Hy Hxy Hyx.
      destruct (feed_before_antisym _ _ Hxy Hyx) as [Ht _].
      rewrite sort_feed_perm, Hperm in Hx.
      set_unfold in Hx. set_unfold in Hy.
      destruct Hx as [->|[->|[->|[]]]], Hy as [->|[->|[->|[]]]]; done || lia.
    - apply sort_feed_sorted.
    - repeat constructor; unfold feed_before; lia.
    - rewrite sort_feed_perm, Hperm.
      etrans; [apply Permutation_sym, (Permutation_cons_append [a1; a2] a3)|].
      by rewrite Permutation_swap.
  }
  unfold buildFeed. by rewrite Hsort.
Qed.

(** When ids are distinct the feed does not depend on the order in which
    the store returned the events. *)
Lemma buildFeed_order_independent limit events events' :
  NoDup (ev_id <$> events) → events ≡ₚ events' →
  buildFeed limit events = buildFeed limit events'.
Proof.
  intros Hnodup Hperm. unfold buildFeed. f_equal.
  apply StronglySorted_unique_strong with (R := feed_before);
    [|apply sort_feed_sorted..|by rewrite !sort_feed_perm].
  intros x y Hx Hy Hxy Hyx.
  destruct (feed_before_antisym _ _ Hxy Hyx) as [_ Hid].
  rewrite sort_feed_perm in Hx. rewrite sort_feed_perm, <-Hperm in Hy.
  apply list_elem_of_lookup in Hx as [i Hi], Hy as [j Hj].
  assert (i = j) as ->; [|congruence].
  eapply NoDup_lookup; [exact Hnodup|..]; rewrite list_lookup_fmap.
  - by rewrite Hi.
  - by rewrite Hj, Hid.
Qed.

End feed.

(** C6: for every list of events and every limit, the feed is sorted by
    occurred_at descending with ties broken by id descending; it is the
    first feedLimit entries of the sorted rearrangement of all events,
    so what is dropped is listed after (is not newer than) everything
    kept and nothing is reordered; three events with instants
    t3 > t1 > t2, given in any order, give exactly [t3, t1] under
    feedLimit = 2; and the page renders its rows in the order of the
    feed. *)
Theorem buildFeed_sorted_truncated
    (feedLimit : nat) (events : list Core.ActivityEvent) :
  StronglySorted Core.feed_before (Core.buildFeed feedLimit events)
  ∧ Core.sort_feed events ≡ₚ events
  ∧ Core.buildFeed feedLimit events ++ drop feedLimit (Core.sort_feed events)
    = Core.sort_feed events
  ∧ length (Core.buildFeed feedLimit events) = (feedLimit `min` length events)%nat
  ∧ (∀ kept dropped,
       kept ∈ Core.buildFeed feedLimit events →
       dropped ∈ drop feedLimit (Core.sort_feed events) →
       Core.feed_before kept dropped)
  ∧ (∀ a1 a2 a3,
       Core.occurred_at a2 < Core.occurred_at a1 →
       Core.occurred_at a1 < Core.occurred_at a3 →
       events ≡ₚ [a1; a2; a3] →
       Core.buildFeed 2 events = [a3; a1])
  ∧ (∀ rt profile m,
       recentActivity m = Core.to_recent <$> Core.buildFeed feedLimit events →
       ∃ heading cards rows notice,
         StudentMetrics rt profile {| data := Some m; isLoading := false |}
         = Dashboard heading cards rows notice
         ∧ row_key <$> rows = Core.ev_id <$> Core.buildFeed feedLimit events).
Proof.
  split_and!.
  - apply buildFeed_sorted.
  - apply sort_feed_perm.
  - apply take_drop.
  - apply buildFeed_length.
  - apply buildFeed_drops_oldest.
  - intros a1 a2 a3. apply buildFeed_three.
  - intros rt profile m Hfeed. do 4 eexists. split; [apply dashboard_rows|].
    rewrite Hfeed, <-!list_fmap_compose. by apply list_fmap_ext.
Qed.

(** ** The properties on the sample data *)

Example streak_three_days_sample :
  Core.currentStreak sample_tz sample_now sessions_three_days = 3%nat.
Proof. vm_compute. reflexivity. Qed.

Example streak_gap_sample :
  Core.currentStreak sample_tz sample_now sessions_with_gap = 1%nat.
Proof. vm_compute. reflexivity. Qed.

Example streak_tomorrow_sample :
  Core.currentStreak sample_tz sample_now sessions_tomorrow = 0%nat.
Proof. vm_compute. reflexivity. Qed.

Example feed_sample :
  Core.ev_id <$> Core.buildFeed 2 events_t1_t2_t3 = ["c"; "a"].
Proof. vm_compute. reflexivity. Qed.

Example feed_tied_sample :
  Core.ev_id <$> Core.buildFeed 3 events_tied = ["c"; "b"; "a"].
Proof. vm_compute. reflexivity. Qed.

Example total_minutes_sample : Core.total_minutes sessions_three_days = 90.
Proof. reflexivity. Qed.

Lemma buildFeed_sorted_truncated_witness :
  Core.buildFeed 2 events_t1_t2_t3 = [event "c" 3000; event "a" 2000].
Proof.
  destruct (buildFeed_sorted_truncated 2 events_t1_t2_t3)
    as (_ & _ & _ & _ & _ & Hthree & _).
  apply (Hthree (event "a" 2000) (event "b" 1000) (event "c" 3000)).
  - simpl. lia.
  - simpl. lia.
  - reflexivity.
Defined.



Lemma empty_feed_renders_notice_witness :
  StudentMetrics {| toLocaleDateString_ptBR := λ _, "" |} None
    {| data := Some no_data_yet; isLoading := false |}
  = Dashboard "Bem vindo(a), Estudante!" (stat_cards no_data_yet) []
              (Some "Nenhuma atividade recente encontrada").
Proof.
  apply (empty_feed_renders_notice {| toLocaleDateString_ptBR := λ _, "" |}
           None no_data_yet eq_refl).
Defined.

(** * The lesson editing dialog *)

(** ** The list of picked files *)

Section picked_files.
Import EditLessonModal.
Context {A : Type}.
Implicit Types (l : list A) (keep : nat → bool) (i k index : nat).

Lemma filter_index_ext keep keep' k l :
  (∀ i, (k ≤ i)%nat → keep i = keep' i) →
  filter_index keep k l = filter_index keep' k l.
Proof.
  revert k. induction l as [|x l IH]; intros k Hext; simpl; [done|].
  rewrite (Hext k) by lia. rewrite (IH (S k)); [done|].
  intros i Hi. apply Hext. lia.
Qed.

Lemma filter_index_all keep k l :
  (∀ i, (k ≤ i)%nat → keep i = true) → filter_index keep k l = l.
Proof.
  revert k. induction l as [|x l IH]; intros k Hall; simpl; [done|].
  rewrite Hall by lia. f_equal. apply IH. intros i Hi. apply Hall. lia.
Qed.

Lemma filter_index_drop_one k index l :
  filter_index (λ i, negb (i =? k + index)%nat) k l = delete index l.
Proof.
  revert k index. induction l as [|x l IH]; intros k index; simpl; [done|].
  destruct index as [|index]; simpl.
  - rewrite Nat.add_0_r, Nat.eqb_refl. simpl.
    apply filter_index_all. intros i Hi.
    apply negb_true_iff, Nat.eqb_neq. lia.
  - assert ((k =? k + S index)%nat = false) as -> by (apply Nat.eqb_neq; lia).
    simpl. f_equal. rewrite <-(IH (S k) index).
    apply filter_index_ext. intros i _.
    by replace (S k + index)%nat with (k + S index)%nat by lia.
Qed.

End picked_files.

Section picked_files_handlers.
Import EditLessonModal.
Implicit Types (prev files : list File) (index i j : nat).

Lemma removeMaterialFile_delete index prev :
  removeMaterialFile index prev = delete index prev.
Proof. apply (filter_index_drop_one 0). Qed.

End picked_files_handlers.

(** X1: [removeMaterialFile index] removes exactly the entry at
    [index]: what is left is the entries before it followed by the
    entries after it, each one position earlier, in the same order. *)
Theorem removeMaterialFile_spec
    (index : nat) (prev : list EditLessonModal.File) :
  EditLessonModal.removeMaterialFile index prev
  = take index prev ++ drop (S index) prev
  ∧ (∀ j, (j < index)%nat →
       EditLessonModal.removeMaterialFile index prev !! j = prev !! j)
  ∧ (∀ j, (index ≤ j)%nat →
       EditLessonModal.removeMaterialFile index prev !! j = prev !! S j).
Proof.
  rewrite removeMaterialFile_delete. split_and!.
  - apply delete_take_drop.
  - intros j Hj. by apply list_lookup_delete_lt.
  - intros j Hj. by apply list_lookup_delete_ge.
Qed.

(** X2: an index past the end removes nothing, the list comes back
    unchanged; an index inside the list shortens it by exactly one. *)
Theorem removeMaterialFile_bounds
    (index : nat) (prev : list EditLessonModal.File) :
  ((length prev ≤ index)%nat → EditLessonModal.removeMaterialFile index prev = prev)
  ∧ ((index < length prev)%nat →
     S (length (EditLessonModal.removeMaterialFile index prev)) = length prev).
Proof.
  rewrite removeMaterialFile_delete, delete_take_drop. split.
  - intros Hge. rewrite take_ge, drop_ge by lia. apply app_nil_r.
  - intros Hlt. rewrite length_app, length_take, length_drop. lia.
Qed.

(** X3: picking files appends them, keeping duplicates; removing at a
    position inside the old list leaves the new files alone, removing
    at a later position removes among the new files only, and picking
    one file and removing the last entry gives the old list back. *)
Theorem pick_then_remove
    (index : nat) (files prev : list EditLessonModal.File) :
  let picked := EditLessonModal.handleMaterialFilesChange (Some files) prev in
  length picked = (length prev + length files)%nat
  ∧ EditLessonModal.handleMaterialFilesChange None prev = prev
  ∧ ((index < length prev)%nat →
     EditLessonModal.removeMaterialFile index picked
     = EditLessonModal.removeMaterialFile index prev ++ files)
  ∧ ((length prev ≤ index)%nat →
     EditLessonModal.removeMaterialFile index picked
     = prev ++ EditLessonModal.removeMaterialFile (index - length prev) files)
  ∧ (∀ file,
       EditLessonModal.removeMaterialFile (length prev)
         (EditLessonModal.handleMaterialFilesChange (Some [file]) prev) = prev).
Proof.
  intros picked. unfold picked, EditLessonModal.handleMaterialFilesChange. simpl.
  rewrite !removeMaterialFile_delete. split_and!.
  - apply length_app.
  - apply app_nil_r.
  - intros Hlt. rewrite !delete_take_drop.
    rewrite take_app_le, drop_app_le by lia. by rewrite <-(assoc_L (++)).
  - intros Hge. rewrite !delete_take_drop.
    rewrite take_app_ge, drop_app_ge by lia.
    replace (S index - length prev)%nat with (S (index - length prev)) by lia.
    by rewrite <-(assoc_L (++)).
  - intros file. rewrite removeMaterialFile_delete, (delete_middle prev []).
    apply app_nil_r.
Qed.

(** ** Submission *)

Section submission.
Import EditLessonModal.
Implicit Types (sv : Services) (lesson : Lesson) (st : ModalState)
  (data : LessonFormData) (files : list File) (acc new : list Material)
  (es : list effect) (reqs : list UploadRequest).

Lemma imap_request_S sv lesson i files :
  imap ((λ j, upload_request sv lesson (i + j)) ∘ S) files
  = imap (λ j, upload_request sv lesson (S i + j)) files.
Proof.
  apply imap_ext. intros j f _. simpl.
  by replace (S (i + j))%nat with (i + S j)%nat by lia.
Qed.

Lemma upload_loop_resolved sv lesson files : ∀ i acc,
  (∀ j file, files !! j = Some file →
     is_Some (uploadFile sv (i + j) (upload_request sv lesson (i + j) file))) →
  ∃ new,
    upload_loop sv lesson i files acc
    = (UploadFile <$> imap (λ j, upload_request sv lesson (i + j)) files,
       Some (acc ++ new))
    ∧ length new = length files
    ∧ ∀ j file url, files !! j = Some file →
        uploadFile sv (i + j) (upload_request sv lesson (i + j) file) = Some url →
        new !! j = Some (new_material file url).
Proof.
  induction files as [|file files IH]; intros i acc Hall.
  - exists []. simpl. rewrite app_nil_r. split_and!; [done..|].
    intros j f url Hj. by rewrite lookup_nil in Hj.
  - destruct (Hall 0%nat file eq_refl) as [url Hurl].
    rewrite Nat.add_0_r in Hurl.
    destruct (IH (S i) (acc ++ [new_material file url])) as (new & Hloop & Hlen & Hnew).
    { intros j f Hj. replace (S i + j)%nat with (i + S j)%nat by lia.
      by apply Hall. }
    exists (new_material file url :: new). split_and!.
    + cbn [upload_loop imap]. rewrite imap_request_S, Nat.add_0_r, Hurl, Hloop.
      by rewrite <-(assoc_L (++)).
    + simpl. lia.
    + intros [|j] f u Hj Hu; simpl in Hj.
      * rewrite Nat.add_0_r in Hu. simpl. congruence.
      * rewrite <-Nat.add_succ_comm in Hu. by apply Hnew.
Qed.

Lemma upload_loop_rejected sv lesson files : ∀ i acc k file,
  files !! k = Some file →
  uploadFile sv (i + k) (upload_request sv lesson (i + k) file) = None →
  (∀ j f, (j < k)%nat → files !! j = Some f →
     is_Some (uploadFile sv (i + j) (upload_request sv lesson (i + j) f))) →
  upload_loop sv lesson i files acc
  = (UploadFile <$> take (S k) (imap (λ j, upload_request sv lesson (i + j)) files),
     None).
Proof.
  induction files as [|file0 files IH]; intros i acc k file Hk Hrej Hbefore.
  - by rewrite lookup_nil in Hk.
  - destruct k as [|k]; simpl in *.
    + simplify_eq. rewrite Nat.add_0_r in *. by rewrite Hrej.
    + destruct (Hbefore 0%nat file0) as [url Hurl]; [lia|done|].
      rewrite Nat.add_0_r in *. rewrite Hurl.
      rewrite (IH (S i) _ k file); [| done | | ].
      * by rewrite imap_request_S.
      * by replace (S i + k)%nat with (i + S k)%nat by lia.
      * intros j f Hj Hf. replace (S i + j)%nat with (i + S j)%nat by lia.
        apply Hbefore; [lia|done].
Qed.

(** Either every upload of the loop resolves, or one is the first to
    reject. *)
Lemma resolve_or_reject sv lesson files :
  all_resolve sv lesson files ∨ ∃ k, first_rejected sv lesson files k.
Proof.
  unfold all_resolve, first_rejected.
  induction files as [|file files IH] using rev_ind.
  - left. intros j f Hj. by rewrite lookup_nil in Hj.
  - destruct IH as [Hall|[k [(f & Hk & Hrej) Hbefore]]].
    + destruct (uploadFile sv (length files)
                  (upload_request sv lesson (length files) file)) as [url|] eqn:Hlast.
      * left. intros j f Hj.
        apply lookup_app_Some in Hj as [Hj|[Hge Hj]]; [by eapply Hall|].
        apply list_lookup_singleton_Some in Hj as [Hj ->].
        replace j with (length files) by lia. by rewrite Hlast.
      * right. exists (length files). split.
        -- exists file. split; [|done]. by rewrite lookup_app_r, Nat.sub_diag.
        -- intros j f Hj Hf. rewrite lookup_app_l in Hf by done. by eapply Hall.
    + right. exists k. split.
      * exists f. split; [|done]. rewrite lookup_app_l; [done|].
        by eapply lookup_lt_Some.
      * intros j f' Hj Hf. apply lookup_lt_Some in Hk.
        rewrite lookup_app_l in Hf by lia. by eapply Hbefore.
Qed.

Lemma upload_loop_all sv lesson files :
  all_resolve sv lesson files →
  ∃ new, upload_loop sv lesson 0 files [] = (UploadFile <$> requests sv lesson files, Some new)
         ∧ materials_of sv lesson files new.
Proof.
  intros Hall. destruct (upload_loop_resolved sv lesson files 0 [] Hall)
    as (new & Hloop & Hlen & Hnew).
  exists new. split; [exact Hloop|]. by split.
Qed.

Lemma upload_loop_first sv lesson files k :
  first_rejected sv lesson files k →
  upload_loop sv lesson 0 files []
  = (UploadFile <$> take (S k) (requests sv lesson files), None).
Proof.
  intros [(file & Hk & Hrej) Hbefore].
  by apply (upload_loop_rejected sv lesson files 0 [] k file).
Qed.

Lemma onSubmit_unfold sv lesson st data :
  onSubmit sv lesson st data
  = [SetUploadingMaterials true]
    ++ (upload_loop sv lesson 0 (materialFiles st) []).1
    ++ after_uploads sv lesson data (upload_loop sv lesson 0 (materialFiles st) []).2
    ++ [SetUploadingMaterials false].
Proof.
  unfold onSubmit. by destruct (upload_loop _ _ _ _ _) as [uploads [new|]].
Qed.

(** The two ways a submission can go. *)
Lemma onSubmit_cases sv lesson st data :
  (∃ new,
     all_resolve sv lesson (materialFiles st)
     ∧ materials_of sv lesson (materialFiles st) new
     ∧ onSubmit sv lesson st data
       = [SetUploadingMaterials true]
         ++ (UploadFile <$> requests sv lesson (materialFiles st))
         ++ after_uploads sv lesson data (Some new)
         ++ [SetUploadingMaterials false])
  ∨ (∃ k,
       first_rejected sv lesson (materialFiles st) k
       ∧ onSubmit sv lesson st data
         = [SetUploadingMaterials true]
           ++ (UploadFile <$> take (S k) (requests sv lesson (materialFiles st)))
           ++ after_uploads sv lesson data None
           ++ [SetUploadingMaterials false]).
Proof.
  rewrite onSubmit_unfold.
  destruct (resolve_or_reject sv lesson (materialFiles st)) as [Hall|[k Hk]].
  - left. destruct (upload_loop_all _ _ _ Hall) as (new & -> & Hnew). by exists new.
  - right. exists k. by rewrite (upload_loop_first _ _ _ _ Hk).
Qed.

Lemma uploads_of_uploads reqs : uploads_of (UploadFile <$> reqs) = reqs.
Proof. induction reqs as [|r reqs IH]; simpl; [done|]. by f_equal. Qed.

Lemma updates_of_uploads reqs : updates_of (UploadFile <$> reqs) = [].
Proof. by induction reqs. Qed.

Lemma open_changes_of_uploads reqs : open_changes_of (UploadFile <$> reqs) = [].
Proof. by induction reqs. Qed.

Lemma apply_effects_uploads st reqs : apply_effects st (UploadFile <$> reqs) = st.
Proof. by induction reqs. Qed.

Lemma uploads_of_after sv lesson data result :
  uploads_of (after_uploads sv lesson data result) = [].
Proof. destruct result; simpl; [|done]. by destruct (updateLesson _ _). Qed.

Lemma uploads_of_trace reqs tail :
  uploads_of tail = [] →
  uploads_of ([SetUploadingMaterials true] ++ (UploadFile <$> reqs) ++ tail
              ++ [SetUploadingMaterials false]) = reqs.
Proof.
  intros Htail. unfold uploads_of in *. rewrite !omap_app, Htail.
  fold (uploads_of (UploadFile <$> reqs)). rewrite uploads_of_uploads.
  simpl. apply app_nil_r.
Qed.

Lemma updates_of_trace reqs tail :
  updates_of ([SetUploadingMaterials true] ++ (UploadFile <$> reqs) ++ tail
              ++ [SetUploadingMaterials false]) = updates_of tail.
Proof.
  unfold updates_of. rewrite !omap_app.
  fold (updates_of (UploadFile <$> reqs)). rewrite updates_of_uploads.
  simpl. apply app_nil_r.
Qed.

Lemma open_changes_of_trace reqs tail :
  open_changes_of ([SetUploadingMaterials true] ++ (UploadFile <$> reqs) ++ tail
                   ++ [SetUploadingMaterials false]) = open_changes_of tail.
Proof.
  unfold open_changes_of. rewrite !omap_app.
  fold (open_changes_of (UploadFile <$> reqs)). rewrite open_changes_of_uploads.
  simpl. apply app_nil_r.
Qed.

Lemma materialFiles_apply_effects es : ∀ st st',
  materialFiles st = materialFiles st' →
  materialFiles (apply_effects st es) = materialFiles (apply_effects st' es).
Proof.
  unfold apply_effects. induction es as [|e es IH]; intros st st' Hfiles; simpl; [done|].
  apply IH. by destruct e; simpl.
Qed.

Lemma apply_effects_trace st reqs tail :
  apply_effects st ([SetUploadingMaterials true] ++ (UploadFile <$> reqs) ++ tail
                    ++ [SetUploadingMaterials false])
  = {| materialFiles := materialFiles (apply_effects st tail);
       uploadingMaterials := false |}.
Proof.
  unfold apply_effects. rewrite !foldl_app. simpl.
  fold (apply_effects (apply_effect st (SetUploadingMaterials true)) (UploadFile <$> reqs)).
  rewrite apply_effects_uploads. unfold apply_effect at 1. f_equal.
  by apply materialFiles_apply_effects.
Qed.

End submission.

Section submission_outcomes.
Import EditLessonModal.
Implicit Types (sv : Services) (lesson : Lesson) (st : ModalState)
  (data : LessonFormData) (new : list Material).

Lemma updates_of_after sv lesson data result :
  updates_of (after_uploads sv lesson data result)
  = match result with
    | Some new => [lesson_update lesson data new]
    | None => []
    end.
Proof. destruct result; simpl; [|done]. by destruct (updateLesson _ _). Qed.

Lemma open_changes_of_after sv lesson data result :
  open_changes_of (after_uploads sv lesson data result)
  = match result with
    | Some new => if updateLesson sv (lesson_update lesson data new) then [false] else []
    | None => []
    end.
Proof. destruct result; simpl; [|done]. by destruct (updateLesson _ _). Qed.

Lemma materialFiles_after sv lesson data result st :
  materialFiles (apply_effects st (after_uploads sv lesson data result))
  = match open_changes_of (after_uploads sv lesson data result) with
    | [] => materialFiles st
    | _ => []
    end.
Proof. destruct result; simpl; [|done]. by destruct (updateLesson _ _). Qed.

Lemma length_requests sv lesson files :
  length (requests sv lesson files) = length files.
Proof. apply length_imap. Qed.

Lemma all_resolve_not_rejected sv lesson files k :
  all_resolve sv lesson files → ¬ first_rejected sv lesson files k.
Proof.
  intros Hall [(file & Hk & Hrej) _]. destruct (Hall k file Hk) as [url Hurl].
  congruence.
Qed.

Lemma onSubmit_resolved sv lesson st data :
  all_resolve sv lesson (materialFiles st) →
  ∃ new,
    materials_of sv lesson (materialFiles st) new
    ∧ onSubmit sv lesson st data
      = [SetUploadingMaterials true]
        ++ (UploadFile <$> requests sv lesson (materialFiles st))
        ++ after_uploads sv lesson data (Some new)
        ++ [SetUploadingMaterials false].
Proof.
  intros Hall. destruct (onSubmit_cases sv lesson st data)
    as [(new & _ & Hnew & Htrace)|(k & Hk & _)].
  - by exists new.
  - by destruct (all_resolve_not_rejected _ _ _ k Hall).
Qed.

End submission_outcomes.

(** X4: when every upload and the update request resolve, a submission
    uploads each picked file once, in the order picked, then sends one
    update whose materials are the existing ones followed by one entry
    per picked file (its name, type and size, with the url the upload
    returned), then closes the dialog, resets the form and clears the
    picked files; the component is left in its initial state. *)
Theorem onSubmit_success
    (sv : EditLessonModal.Services) (lesson : EditLessonModal.Lesson)
    (st : EditLessonModal.ModalState) (data : EditLessonModal.LessonFormData) :
  EditLessonModal.all_resolve sv lesson (EditLessonModal.materialFiles st) →
  (∀ new, EditLessonModal.materials_of sv lesson (EditLessonModal.materialFiles st) new →
          EditLessonModal.updateLesson sv (EditLessonModal.lesson_update lesson data new) = true) →
  ∃ new,
    EditLessonModal.materials_of sv lesson (EditLessonModal.materialFiles st) new
    ∧ EditLessonModal.onSubmit sv lesson st data
      = [EditLessonModal.SetUploadingMaterials true]
        ++ (EditLessonModal.UploadFile
              <$> EditLessonModal.requests sv lesson (EditLessonModal.materialFiles st))
        ++ [EditLessonModal.UpdateLesson (EditLessonModal.lesson_update lesson data new);
            EditLessonModal.OnOpenChange false;
            EditLessonModal.Reset;
            EditLessonModal.SetMaterialFiles [];
            EditLessonModal.SetUploadingMaterials false]
    ∧ EditLessonModal.upd_materials (EditLessonModal.lesson_update lesson data new)
      = EditLessonModal.existingMaterials lesson ++ new
    ∧ EditLessonModal.apply_effects st (EditLessonModal.onSubmit sv lesson st data)
      = EditLessonModal.initial.
Proof.
  intros Hall Hupdate.
  destruct (onSubmit_resolved sv lesson st data Hall) as (new & Hnew & Htrace).
  exists new. split; [done|].
  rewrite Htrace, apply_effects_trace. simpl. rewrite (Hupdate new Hnew).
  by split_and!.
Qed.

(** X5: when the upload of iteration k is the first to reject, the
    submission has made exactly k + 1 upload requests (those of the first
    k + 1 picked files, in order), sends no update, does not close the
    dialog, logs the error, and leaves the picked files as they were with
    the uploading flag cleared; the k files already uploaded stay
    uploaded without any lesson referring to them. *)
Theorem onSubmit_upload_rejected
    (sv : EditLessonModal.Services) (lesson : EditLessonModal.Lesson)
    (st : EditLessonModal.ModalState) (data : EditLessonModal.LessonFormData)
    (k : nat) :
  EditLessonModal.first_rejected sv lesson (EditLessonModal.materialFiles st) k →
  let trace := EditLessonModal.onSubmit sv lesson st data in
  trace
  = [EditLessonModal.SetUploadingMaterials true]
    ++ (EditLessonModal.UploadFile
          <$> take (S k) (EditLessonModal.requests sv lesson (EditLessonModal.materialFiles st)))
    ++ [EditLessonModal.ConsoleError; EditLessonModal.SetUploadingMaterials false]
  ∧ length (EditLessonModal.uploads_of trace) = S k
  ∧ EditLessonModal.updates_of trace = []
  ∧ EditLessonModal.open_changes_of trace = []
  ∧ EditLessonModal.apply_effects st trace
    = {| EditLessonModal.materialFiles := EditLessonModal.materialFiles st;
         EditLessonModal.uploadingMaterials := false |}.
Proof.
  intros Hk trace. unfold trace.
  rewrite onSubmit_unfold, (upload_loop_first _ _ _ _ Hk). simpl fst. simpl snd.
  split_and!.
  - done.
  - rewrite uploads_of_trace by done.
    destruct Hk as [(file & Hfile%lookup_lt_Some & _) _].
    rewrite length_take, length_requests. lia.
  - by rewrite updates_of_trace.
  - by rewrite open_changes_of_trace.
  - by rewrite apply_effects_trace.
Qed.

(** X6: when every upload resolves but the update request rejects, all
    picked files have been uploaded and the one update was attempted,
    yet the dialog stays open, the form is not reset and the picked files
    are kept; the error is logged and the uploading flag cleared. *)
Theorem onSubmit_update_rejected
    (sv : EditLessonModal.Services) (lesson : EditLessonModal.Lesson)
    (st : EditLessonModal.ModalState) (data : EditLessonModal.LessonFormData) :
  EditLessonModal.all_resolve sv lesson (EditLessonModal.materialFiles st) →
  (∀ new, EditLessonModal.materials_of sv lesson (EditLessonModal.materialFiles st) new →
          EditLessonModal.updateLesson sv (EditLessonModal.lesson_update lesson data new) = false) →
  let trace := EditLessonModal.onSubmit sv lesson st data in
  ∃ new,
    EditLessonModal.materials_of sv lesson (EditLessonModal.materialFiles st) new
    ∧ trace
      = [EditLessonModal.SetUploadingMaterials true]
        ++ (EditLessonModal.UploadFile
              <$> EditLessonModal.requests sv lesson (EditLessonModal.materialFiles st))
        ++ [EditLessonModal.UpdateLesson (EditLessonModal.lesson_update lesson data new);
            EditLessonModal.ConsoleError;
            EditLessonModal.SetUploadingMaterials false]
    ∧ EditLessonModal.open_changes_of trace = []
    ∧ EditLessonModal.apply_effects st trace
      = {| EditLessonModal.materialFiles := EditLessonModal.materialFiles st;
           EditLessonModal.uploadingMaterials := false |}.
Proof.
  intros Hall Hupdate trace. unfold trace.
  destruct (onSubmit_resolved sv lesson st data Hall) as (new & Hnew & Htrace).
  exists new. split; [done|].
  rewrite Htrace, open_changes_of_trace, apply_effects_trace. simpl.
  rewrite (Hupdate new Hnew). by split_and!.
Qed.

Section submission_always.
Import EditLessonModal.
Implicit Types (sv : Services) (lesson : Lesson) (st : ModalState)
  (data : LessonFormData) (new : list Material).

(** Every trace has the shape bracket, uploads, tail, bracket, the
    uploads being the first [n] requests. *)
Lemma onSubmit_shape sv lesson st data :
  ∃ n result,
    onSubmit sv lesson st data
    = [SetUploadingMaterials true]
      ++ (UploadFile <$> take n (requests sv lesson (materialFiles st)))
      ++ after_uploads sv lesson data result
      ++ [SetUploadingMaterials false]
    ∧ (∀ new, result = Some new →
         take n (requests sv lesson (materialFiles st))
         = requests sv lesson (materialFiles st)
         ∧ length new = length (materialFiles st)).
Proof.
  destruct (onSubmit_cases sv lesson st data)
    as [(new & _ & [Hlen _] & Htrace)|(k & _ & Htrace)].
  - exists (length (materialFiles st)), (Some new).
    rewrite take_ge by (by rewrite length_requests). split; [done|].
    by intros ? [= <-].
  - exists (S k), None. split; [done|]. by intros ? [=].
Qed.

Lemma onSubmit_files sv lesson st st' data :
  materialFiles st = materialFiles st' →
  onSubmit sv lesson st data = onSubmit sv lesson st' data.
Proof. intros Hfiles. unfold onSubmit. by rewrite Hfiles. Qed.

Lemma onSubmit_state sv lesson st data :
  uploadingMaterials (apply_effects st (onSubmit sv lesson st data)) = false
  ∧ ((open_changes_of (onSubmit sv lesson st data) = [false]
      ∧ materialFiles (apply_effects st (onSubmit sv lesson st data)) = [])
     ∨ (open_changes_of (onSubmit sv lesson st data) = []
        ∧ materialFiles (apply_effects st (onSubmit sv lesson st data))
          = materialFiles st)).
Proof.
  destruct (onSubmit_shape sv lesson st data) as (n & result & -> & _).
  rewrite apply_effects_trace, open_changes_of_trace, materialFiles_after,
    open_changes_of_after.
  split; [done|]. destruct result as [new|]; [|by right].
  destruct (updateLesson sv _); [by left|by right].
Qed.

End submission_always.

(** X7: whatever the services do, a submission sets the uploading flag
    first and clears it last, so the component never stays in the
    uploading state; and the picked files are either cleared, exactly
    when the dialog was told to close, or left as they were. *)
Theorem onSubmit_finally
    (sv : EditLessonModal.Services) (lesson : EditLessonModal.Lesson)
    (st : EditLessonModal.ModalState) (data : EditLessonModal.LessonFormData) :
  let trace := EditLessonModal.onSubmit sv lesson st data in
  let st' := EditLessonModal.apply_effects st trace in
  (∃ body, trace = EditLessonModal.SetUploadingMaterials true
                   :: body ++ [EditLessonModal.SetUploadingMaterials false])
  ∧ EditLessonModal.uploadingMaterials st' = false
  ∧ ((EditLessonModal.open_changes_of trace = [false]
      ∧ EditLessonModal.materialFiles st' = [])
     ∨ (EditLessonModal.open_changes_of trace = []
        ∧ EditLessonModal.materialFiles st' = EditLessonModal.materialFiles st)).
Proof.
  intros trace st'. unfold st', trace.
  destruct (onSubmit_state sv lesson st data) as [Hflag Hfiles].
  split_and!; [|done..].
  destruct (onSubmit_shape sv lesson st data) as (n & result & -> & _).
  eexists. simpl. by rewrite <-(assoc_L (++)).
Qed.

(** X8: whatever the services do, the uploads of a submission are the
    requests of the first picked files, in the order picked and at most
    one per file; at most one update is sent, and only after every
    picked file was uploaded; that update is for the lesson of the
    dialog and keeps every existing material, in place, before the new
    ones; and the dialog is told to close only when an update was
    sent. *)
Theorem onSubmit_requests
    (sv : EditLessonModal.Services) (lesson : EditLessonModal.Lesson)
    (st : EditLessonModal.ModalState) (data : EditLessonModal.LessonFormData) :
  let trace := EditLessonModal.onSubmit sv lesson st data in
  let files := EditLessonModal.materialFiles st in
  EditLessonModal.uploads_of trace `prefix_of` EditLessonModal.requests sv lesson files
  ∧ (length (EditLessonModal.updates_of trace) ≤ 1)%nat
  ∧ (∀ u, u ∈ EditLessonModal.updates_of trace →
       EditLessonModal.uploads_of trace = EditLessonModal.requests sv lesson files
       ∧ EditLessonModal.upd_id u = EditLessonModal.lesson_id lesson
       ∧ EditLessonModal.existingMaterials lesson
           `prefix_of` EditLessonModal.upd_materials u
       ∧ length (EditLessonModal.upd_materials u)
         = (length (EditLessonModal.existingMaterials lesson) + length files)%nat)
  ∧ (EditLessonModal.open_changes_of trace ≠ [] →
     EditLessonModal.updates_of trace ≠ []).
Proof.
  intros trace files. unfold trace, files.
  destruct (onSubmit_shape sv lesson st data) as (n & result & -> & Hresult).
  rewrite uploads_of_trace by apply uploads_of_after.
  rewrite updates_of_trace, open_changes_of_trace, updates_of_after,
    open_changes_of_after.
  split_and!.
  - apply prefix_take.
  - destruct result; simpl; lia.
  - destruct result as [new|]; [|by intros u ?%elem_of_nil].
    intros u ->%list_elem_of_singleton.
    destruct (Hresult new eq_refl) as [Hall Hlen]. split_and!.
    + done.
    + done.
    + by eexists.
    + simpl. rewrite length_app. lia.
  - by destruct result.
Qed.

(** X9: a submission that did not close the dialog leaves the picked
    files untouched, so submitting again starts over from the first
    file: it behaves exactly as if the failed attempt had not happened,
    and when its uploads all resolve it uploads every picked file, those
    the failed attempt had already uploaded included. *)
Theorem onSubmit_retry
    (sv sv' : EditLessonModal.Services) (lesson : EditLessonModal.Lesson)
    (st : EditLessonModal.ModalState) (data data' : EditLessonModal.LessonFormData) :
  EditLessonModal.open_changes_of (EditLessonModal.onSubmit sv lesson st data) = [] →
  let st' := EditLessonModal.apply_effects st (EditLessonModal.onSubmit sv lesson st data) in
  EditLessonModal.onSubmit sv' lesson st' data' = EditLessonModal.onSubmit sv' lesson st data'
  ∧ (EditLessonModal.all_resolve sv' lesson (EditLessonModal.materialFiles st) →
     EditLessonModal.uploads_of (EditLessonModal.onSubmit sv' lesson st' data')
     = EditLessonModal.requests sv' lesson (EditLessonModal.materialFiles st)).
Proof.
  intros Hopen st'.
  assert (EditLessonModal.materialFiles st' = EditLessonModal.materialFiles st) as Hfiles.
  { destruct (onSubmit_state sv lesson st data) as (_ & [[Hclosed _]|[_ Hkept]]).
    - unfold st' in *. congruence.
    - done. }
  rewrite (onSubmit_files sv' lesson st' st data' Hfiles). split; [done|].
  intros Hall. destruct (onSubmit_resolved sv' lesson st data' Hall) as (new & _ & ->).
  apply uploads_of_trace, uploads_of_after.
Qed.

(** X10: pressing the remove button of an existing material changes
    nothing: the state is the same, the next submission is the same, and
    any update it sends still carries every existing material, the one
    meant to be removed included. *)
Theorem removeExistingMaterial_no_effect
    (sv : EditLessonModal.Services) (lesson : EditLessonModal.Lesson)
    (index : nat) (st : EditLessonModal.ModalState)
    (data : EditLessonModal.LessonFormData) :
  let st' := EditLessonModal.handle lesson st (EditLessonModal.RemoveExisting index) in
  st' = st
  ∧ EditLessonModal.onSubmit sv lesson st' data = EditLessonModal.onSubmit sv lesson st data
  ∧ ∀ u m, u ∈ EditLessonModal.updates_of (EditLessonModal.onSubmit sv lesson st' data) →
           EditLessonModal.existingMaterials lesson !! index = Some m →
           EditLessonModal.upd_materials u !! index = Some m.
Proof.
  intros st'. split_and!; [done..|].
  intros u m Hu Hm.
  unfold st', EditLessonModal.handle, EditLessonModal.removeExistingMaterial in Hu.
  destruct (onSubmit_shape sv lesson st data) as (n & result & Htrace & _).
  rewrite Htrace, updates_of_trace, updates_of_after in Hu.
  destruct result as [new|]; [|by apply elem_of_nil in Hu].
  apply list_elem_of_singleton in Hu as ->. simpl.
  by apply lookup_app_l_Some.
Qed.

(** X11: when the dialog is handed a lesson with another id, the form
    is refilled from that lesson and the picked files are dropped, so a
    submission that follows uploads nothing and sends exactly the
    materials the new lesson already has; when the id is the same,
    nothing is touched and the picked files stay. *)
Theorem lesson_switch_drops_picked_files
    (sv : EditLessonModal.Services) (previous lesson : EditLessonModal.Lesson)
    (st : EditLessonModal.ModalState) (data : EditLessonModal.LessonFormData) :
  let st' := EditLessonModal.apply_effects st (EditLessonModal.on_lesson previous lesson) in
  (EditLessonModal.lesson_id previous ≠ EditLessonModal.lesson_id lesson →
     EditLessonModal.on_lesson previous lesson
     = [EditLessonModal.ResetTo (EditLessonModal.form_values lesson);
        EditLessonModal.SetMaterialFiles []]
     ∧ EditLessonModal.materialFiles st' = []
     ∧ EditLessonModal.uploads_of (EditLessonModal.onSubmit sv lesson st' data) = []
     ∧ ∀ u, u ∈ EditLessonModal.updates_of (EditLessonModal.onSubmit sv lesson st' data) →
            EditLessonModal.upd_materials u = EditLessonModal.existingMaterials lesson)
  ∧ (EditLessonModal.lesson_id previous = EditLessonModal.lesson_id lesson →
     EditLessonModal.on_lesson previous lesson = [] ∧ st' = st).
Proof.
  intros st'. unfold st', EditLessonModal.on_lesson. split.
  - intros Hne. rewrite decide_False by done. split_and!; [done..| |].
    + unfold EditLessonModal.onSubmit. simpl.
      by destruct (EditLessonModal.updateLesson sv _).
    + intros u. unfold EditLessonModal.onSubmit. simpl.
      destruct (EditLessonModal.updateLesson sv _); simpl;
        intros [->|[]%elem_of_nil]%elem_of_cons; simpl; apply app_nil_r.
  - intros Heq. by rewrite decide_True.
Qed.

(** ** Storage paths *)

Section storage_paths.
Import EditLessonModal.

Lemma pretty_N_char_digit (x : N) :
  (48 ≤ Ascii.nat_of_ascii (pretty_N_char x) ≤ 57)%nat.
Proof. unfold pretty_N_char. repeat case_match; vm_compute; lia. Qed.

Lemma pretty_N_go_digits (x : N) : ∀ s, digits s → digits (pretty_N_go x s).
Proof.
  induction (N.lt_wf_0 x) as [x _ IH]. intros s Hs.
  destruct (decide (x = 0)%N) as [->|Hx]; [by rewrite pretty_N_go_0|].
  rewrite pretty_N_go_step by lia. apply IH.
  - apply N.div_lt; lia.
  - simpl. split; [apply pretty_N_char_digit|done].
Qed.

Lemma pretty_N_digits (x : N) : digits (pretty x).
Proof.
  unfold pretty, pretty_N. case_decide.
  - simpl. split; [vm_compute; lia|done].
  - by apply pretty_N_go_digits.
Qed.

(** A run of digits followed by a dash can be read back in one way. *)
Lemma digits_dash_inj (s1 s2 a b : string) :
  digits s1 → digits s2 →
  s1 +:+ "-" +:+ a = s2 +:+ "-" +:+ b → s1 = s2 ∧ a = b.
Proof.
  revert s2. induction s1 as [|c1 s1 IH]; intros [|c2 s2] H1 H2 Heq; simpl in *.
  - by simplify_eq.
  - injection Heq as <- _. destruct H2 as [H2 _]. vm_compute in H2. lia.
  - injection Heq as -> _. destruct H1 as [H1 _]. vm_compute in H1. lia.
  - injection Heq as -> Heq. destruct H1 as [_ H1], H2 as [_ H2].
    destruct (IH s2 H1 H2 Heq) as [-> ->]. done.
Qed.

End storage_paths.

(** X12: within one lesson, two upload requests get the same storage
    path exactly when the clock read the same millisecond for both and
    the two files have the same name; every path lies under the id of
    the lesson, in the bucket of course materials. *)
Theorem upload_path_collision
    (sv : EditLessonModal.Services) (lesson : EditLessonModal.Lesson)
    (i j : nat) (f g : EditLessonModal.File) :
  (EditLessonModal.up_path (EditLessonModal.upload_request sv lesson i f)
   = EditLessonModal.up_path (EditLessonModal.upload_request sv lesson j g)
   ↔ EditLessonModal.now sv i = EditLessonModal.now sv j
     ∧ EditLessonModal.file_name f = EditLessonModal.file_name g)
  ∧ EditLessonModal.up_bucket (EditLessonModal.upload_request sv lesson i f)
    = "course-materials"
  ∧ ∃ rest, EditLessonModal.up_path (EditLessonModal.upload_request sv lesson i f)
            = EditLessonModal.lesson_id lesson +:+ "/" +:+ rest.
Proof.
  split_and!; [|done|by eexists]. simpl. split.
  - intros Heq. apply (inj (String.app _)) in Heq. apply (inj (String.app _)) in Heq.
    apply digits_dash_inj in Heq as [Htime Hname]; [|apply pretty_N_digits..].
    split; [|done]. by apply (inj pretty).
  - by intros [-> ->].
Qed.

(** ** Form defaults *)


(** ** Reachable states *)

Section reachable.
Import EditLessonModal.
Implicit Types (lesson : Lesson) (st : ModalState) (ev : event)
  (evs : list event) (f : File).

Lemma step_flag lesson st ev :
  uploadingMaterials st = false → uploadingMaterials (step lesson st ev) = false.
Proof.
  intros Hflag. destruct ev as [[files|index|index]|sv data]; simpl; [done..|].
  apply onSubmit_state.
Qed.

Lemma step_files lesson st ev f :
  f ∈ materialFiles (step lesson st ev) →
  f ∈ materialFiles st ∨ f ∈ picked_in [ev].
Proof.
  unfold picked_in. rewrite bind_cons. simpl. rewrite app_nil_r.
  destruct ev as [[files|index|index]|sv data]; simpl.
  - unfold handleMaterialFilesChange. by intros ?%elem_of_app.
  - rewrite removeMaterialFile_delete. intros Hf. left.
    by eapply elem_of_sublist, sublist_delete.
  - by left.
  - destruct (onSubmit_state sv lesson st data) as (_ & [[_ ->]|[_ ->]]).
    + by intros ?%elem_of_nil.
    + by left.
Qed.

Lemma run_events_invariant lesson evs : ∀ st,
  uploadingMaterials st = false →
  uploadingMaterials (run_events lesson st evs) = false
  ∧ ∀ f, f ∈ materialFiles (run_events lesson st evs) →
         f ∈ materialFiles st ∨ f ∈ picked_in evs.
Proof.
  unfold run_events. induction evs as [|ev evs IH]; intros st Hflag; cbn [foldl].
  - split; [done|]. by left.
  - destruct (IH (step lesson st ev) (step_flag _ _ _ Hflag)) as [Hflag' Hfiles].
    split; [done|]. intros f Hf. unfold picked_in. rewrite bind_cons, elem_of_app.
    destruct (Hfiles f Hf) as [Hstep|Hlater]; [|by right; right].
    destruct (step_files lesson st ev f Hstep) as [?|Hev]; [by left|].
    right. left. unfold picked_in in Hev. by rewrite bind_cons, app_nil_r in Hev.
Qed.

End reachable.

(** X18: in every state the dialog reaches from its initial one, through
    any sequence of picking files, removing entries and submissions
    however they end, the uploading flag is off and the list holds only
    files the file input handed over; so every upload a later submission
    makes is of a file the user picked. *)
Theorem reachable_states
    (lesson : EditLessonModal.Lesson) (evs : list EditLessonModal.event)
    (sv : EditLessonModal.Services) (data : EditLessonModal.LessonFormData) :
  let st := EditLessonModal.run_events lesson EditLessonModal.initial evs in
  EditLessonModal.uploadingMaterials st = false
  ∧ (∀ f, f ∈ EditLessonModal.materialFiles st → f ∈ EditLessonModal.picked_in evs)
  ∧ (∀ req, req ∈ EditLessonModal.uploads_of (EditLessonModal.onSubmit sv lesson st data) →
            EditLessonModal.up_file req ∈ EditLessonModal.picked_in evs).
Proof.
  intros st.
  destruct (run_events_invariant lesson evs EditLessonModal.initial eq_refl)
    as [Hflag Hfiles].
  assert (∀ f, f ∈ EditLessonModal.materialFiles st → f ∈ EditLessonModal.picked_in evs)
    as Hpicked.
  { intros f Hf. by destruct (Hfiles f Hf) as [?%elem_of_nil|?]. }
  split_and!; [done..|].
  intros req Hreq.
  destruct (onSubmit_shape sv lesson st data) as (n & result & Htrace & _).
  rewrite Htrace, uploads_of_trace in Hreq by apply uploads_of_after.
  apply elem_of_take in Hreq as (i & Hi & _).
  unfold EditLessonModal.requests in Hi.
  apply list_lookup_imap_Some in Hi as (file & Hfile & ->). simpl.
  apply Hpicked. by eapply list_elem_of_lookup_2.
Qed.

(** * More on the dashboard page *)

(** ** Greeting *)

(** X14: the heading greets the student by first name when the profile
    has a non-empty one, and falls back to "Estudante" when there is no
    profile, no first name, or an empty first name; it never greets an
    empty name. *)
Theorem heading_of_fallback (profile : option Profile) :
  (profile ≫= first_name ∈ [None; Some ""] →
     heading_of profile = "Bem vindo(a), Estudante!")
  ∧ (∀ n, n ≠ "" → profile ≫= first_name = Some n →
       heading_of profile = "Bem vindo(a), " +:+ n +:+ "!")
  ∧ heading_of profile ≠ "Bem vindo(a), !".
Proof.
  unfold heading_of, or_else. split_and!.
  - rewrite !elem_of_cons. by intros [->|[->|[]%elem_of_nil]].
  - intros n Hn ->. by rewrite decide_False.
  - intros Heq. apply (inj (String.app "Bem vindo(a), ")) in Heq.
    destruct (profile ≫= first_name) as [n|]; [|done].
    destruct (decide (n = "")) as [->|Hn]; [done|].
    destruct n as [|c n]; [done|]. injection Heq as _ Heq. by destruct n.
Qed.

(** ** Categories *)

(** X15: the colour identifies the category: a known type shares its
    colour with no other type string, and the fallback icon is returned
    for the unknown types only; the icon does not identify the
    category, lesson completions and certificates share one. *)
Theorem activity_colour_identifies_type (t1 t2 : string) :
  (t1 ∈ known_types → getActivityColor t1 = getActivityColor t2 → t1 = t2)
  ∧ (getActivityIcon t1 = Activity ↔ t1 ∉ known_types)
  ∧ getActivityIcon "lesson_completed" = getActivityIcon "certificate_earned".
Proof.
  split_and!; [| |done].
  - unfold known_types. rewrite !elem_of_cons.
    intros [->|[->|[->|[->|[]%elem_of_nil]]]]; unfold getActivityColor at 1; simpl;
      unfold getActivityColor; repeat case_decide; by subst.
  - split; [|apply getActivityIcon_unknown].
    rewrite known_type_cases. unfold getActivityIcon.
    repeat case_decide; by subst.
Qed.

(** ** Percentages *)

Section percentages.
Implicit Types (x y g : Qc).





End percentages.



(** * The added properties on the sample data *)

Example onSubmit_sample :
  EditLessonModal.up_path
    <$> EditLessonModal.uploads_of
          (EditLessonModal.onSubmit services_ok lesson_one two_picked form_data)
  = ["l1/1700000000000-slides.pdf"; "l1/1700000000001-notes.zip"].
Proof. vm_compute. reflexivity. Qed.

Example onSubmit_rejected_sample :
  EditLessonModal.up_path
    <$> EditLessonModal.uploads_of
          (EditLessonModal.onSubmit services_second_upload_rejects lesson_one
             two_picked form_data)
  = ["l1/1700000000000-slides.pdf"; "l1/1700000000001-notes.zip"]
  ∧ EditLessonModal.updates_of
      (EditLessonModal.onSubmit services_second_upload_rejects lesson_one
         two_picked form_data) = [].
Proof. vm_compute. split; reflexivity. Qed.

Example removeMaterialFile_sample :
  EditLessonModal.removeMaterialFile 0 [slides_pdf; notes_zip] = [notes_zip]
  ∧ EditLessonModal.removeMaterialFile 5 [slides_pdf; notes_zip]
    = [slides_pdf; notes_zip].
Proof. split; reflexivity. Qed.

Example form_values_sample :
  EditLessonModal.fv_video_type (EditLessonModal.form_values lesson_one) = "youtube"
  ∧ EditLessonModal.fv_video_type (EditLessonModal.form_values lesson_two) = "vimeo".
Proof. split; reflexivity. Qed.

Lemma onSubmit_success_witness :
  EditLessonModal.apply_effects two_picked
    (EditLessonModal.onSubmit services_ok lesson_one two_picked form_data)
  = EditLessonModal.initial.
Proof.
  destruct (onSubmit_success services_ok lesson_one two_picked form_data)
    as (new & _ & _ & _ & Hstate).
  - intros j file _. eexists. reflexivity.
  - intros new _. reflexivity.
  - exact Hstate.
Defined.

Lemma onSubmit_upload_rejected_witness :
  length (EditLessonModal.uploads_of
            (EditLessonModal.onSubmit services_second_upload_rejects lesson_one
               two_picked form_data)) = 2%nat
  ∧ EditLessonModal.updates_of
      (EditLessonModal.onSubmit services_second_upload_rejects lesson_one
         two_picked form_data) = [].
Proof.
  destruct (onSubmit_upload_rejected services_second_upload_rejects lesson_one
              two_picked form_data 1) as (_ & Hlen & Hnone & _).
  - split.
    + exists notes_zip. split; reflexivity.
    + intros [|j] file Hj Hfile; [|lia]. eexists. reflexivity.
  - split; [exact Hlen | exact Hnone].
Defined.

Lemma onSubmit_update_rejected_witness :
  EditLessonModal.apply_effects two_picked
    (EditLessonModal.onSubmit services_update_rejects lesson_one two_picked form_data)
  = two_picked.
Proof.
  destruct (onSubmit_update_rejected services_update_rejects lesson_one
              two_picked form_data) as (new & _ & _ & _ & Hstate).
  - intros j file _. eexists. reflexivity.
  - intros new _. reflexivity.
  - exact Hstate.
Defined.

Lemma onSubmit_retry_witness :
  EditLessonModal.uploads_of
    (EditLessonModal.onSubmit services_ok lesson_one
       (EditLessonModal.apply_effects two_picked
          (EditLessonModal.onSubmit services_second_upload_rejects lesson_one
             two_picked form_data))
       form_data)
  = EditLessonModal.requests services_ok lesson_one [slides_pdf; notes_zip].
Proof.
  destruct (onSubmit_retry services_second_upload_rejects services_ok lesson_one
              two_picked form_data form_data) as (_ & Hagain).
  - vm_compute. reflexivity.
  - apply Hagain. intros j file _. eexists. reflexivity.
Defined.


